(** * The OLE DB / Access fixture of the C++ unit tests

    [UnitTest/Cpp/DbManagerTest.OleDb.Access.h] declares one managed class,
    [Cpp::DbManagerTest::OleDb::Access], derived from
    [Cpp::DbManagerTest::Test], with a single member: the getter of the
    property [ConfigurationString], whose body is
    [return "Access.OleDb";].

    The development has three layers:
    - [Managed]: what the managed runtime contributes to a call (handles,
      [String*], the outcome of a call, sequencing);
    - [Decl]: class declarations as data, and the C++ rule that decides which
      members of a derived class override a member of its base;
    - [Cpp.DbManagerTest.OleDb]: the class itself, its declaration and its
      getter. *)

From stdpp Require Import base option list strings gmap.

Local Open Scope string_scope.

(** ** The managed runtime *)

Module Managed.

(** A [__gc] pointer refers to an object of the garbage-collected heap. *)
Definition handle : Type := positive.

(** [String*]: the null pointer, or a reference to a [System::String].  Such
    a string has no mutator, so the reference is modelled by its characters. *)
Definition String_ptr : Type := option string.

(** The conversion a narrow literal undergoes where a [String*] is wanted. *)
Definition literal (s : string) : String_ptr := Some s.

(** How a call ends: it returns a value, or it throws a managed exception
    object; either way it leaves a program state behind. *)
Inductive outcome (Σ A : Type) : Type :=
| Returned (a : A) (σ : Σ)
| Thrown (e : handle) (σ : Σ).

Arguments Returned {Σ A} a σ.
Arguments Thrown {Σ A} e σ.

(** Code running against a program state [Σ]. *)
Definition M (Σ A : Type) : Type := Σ → outcome Σ A.

#[global] Instance M_ret {Σ : Type} : MRet (M Σ) :=
  λ A a σ, Returned a σ.

#[global] Instance M_bind {Σ : Type} : MBind (M Σ) :=
  λ A B k m σ,
    match m σ with
    | Returned a σ' => k a σ'
    | Thrown e σ' => Thrown e σ'
    end.

Definition throw {Σ A : Type} (e : handle) : M Σ A :=
  λ σ, Thrown e σ.

(** The state a call leaves behind, however it ended. *)
Definition state_after {Σ A : Type} (o : outcome Σ A) : Σ :=
  match o with
  | Returned _ σ => σ
  | Thrown _ σ => σ
  end.

(** The value a call returned, if it returned. *)
Definition value_of {Σ A : Type} (o : outcome Σ A) : option A :=
  match o with
  | Returned a _ => Some a
  | Thrown _ _ => None
  end.

Definition has_thrown {Σ A : Type} (o : outcome Σ A) : bool :=
  match o with
  | Returned _ _ => false
  | Thrown _ _ => true
  end.

End Managed.

(** ** Class declarations *)

Module Decl.

Inductive access_specifier : Type := acc_public | acc_protected | acc_private.

Inductive type_name : Type :=
| T_void
| T_String_ptr
| T_other (n : string).

Record member_function : Type := {
  mf_access : access_specifier;
  mf_property : bool;   (* declared [__property] *)
  mf_virtual : bool;    (* declared [virtual] *)
  mf_pure : bool;       (* declared [= 0], without a body *)
  mf_return : type_name;
  mf_name : string;
  mf_params : list type_name
}.

Record class_decl : Type := {
  cd_attributes : list string;
  cd_access : access_specifier;
  cd_gc : bool;         (* declared [__gc] *)
  cd_name : string;
  cd_bases : list (access_specifier * string);
  cd_data_members : list (type_name * string);
  cd_member_functions : list member_function
}.

#[global] Instance access_specifier_eq_dec : EqDecision access_specifier.
Proof. solve_decision. Defined.

#[global] Instance type_name_eq_dec : EqDecision type_name.
Proof. solve_decision. Defined.

#[global] Instance member_function_eq_dec : EqDecision member_function.
Proof. solve_decision. Defined.

(** Two member functions have the same signature when name and parameter
    types agree; the return type takes no part in it. *)
Definition same_signature (f g : member_function) : bool :=
  bool_decide (mf_name f = mf_name g ∧ mf_params f = mf_params g).

(** A member function of a derived class overrides a member of the base
    when the base declares a virtual function of the same signature, whether
    or not the derived declaration repeats the word [virtual]. *)
Definition overrides (base : class_decl) (f : member_function) : bool :=
  existsb (λ b, mf_virtual b && same_signature b f) (cd_member_functions base).

Definition overriders (base derived : class_decl) : list member_function :=
  List.filter (overrides base) (cd_member_functions derived).

(** A property getter that hands out a string and takes no argument. *)
Definition string_accessor (f : member_function) : bool :=
  mf_property f
  && bool_decide (mf_return f = T_String_ptr)
  && bool_decide (mf_params f = []).

(** A member function a caller can run: it has a body. *)
Definition implemented (f : member_function) : bool := negb (mf_pure f).

End Decl.

(** ** The fixture *)

Module Cpp.

Import Managed Decl.

Module DbManagerTest.

(** Modelled from the spec: the base class [Cpp::DbManagerTest::Test] is not
    among the sources.  The spec says of it that it requires a
    string-returning configuration accessor of its fixtures; this is the
    smallest declaration of that shape, an abstract managed class whose only
    member is the pure virtual getter. *)
Definition Test_get_ConfigurationString_decl : member_function := {|
  mf_access := acc_public;
  mf_property := true;
  mf_virtual := true;
  mf_pure := true;
  mf_return := T_String_ptr;
  mf_name := "get_ConfigurationString";
  mf_params := []
|}.

(** Modelled from the spec: the base class [Cpp::DbManagerTest::Test] is not
    among the sources; see [Test_get_ConfigurationString_decl]. *)
Definition Test_decl_example : class_decl := {|
  cd_attributes := [];
  cd_access := acc_public;
  cd_gc := true;
  cd_name := "Cpp::DbManagerTest::Test";
  cd_bases := [];
  cd_data_members := [];
  cd_member_functions := [Test_get_ConfigurationString_decl]
|}.

Module OleDb.

(** An instance of [Access].  The class has no data member of its own: an
    instance is its base-class subobject and nothing else.  What the base
    class [Test] keeps there is not part of this file, whence the
    parameter. *)
Record Access (TestData : Type) : Type := {
  Test_subobject : TestData
}.

Arguments Test_subobject {TestData} _.

(** The program state a call runs against: the fixture instances of the
    managed heap, and everything else the program holds. *)
Record State (TestData Other : Type) : Type := {
  instances : gmap handle (Access TestData);
  other : Other
}.

Arguments instances {TestData Other} _.
Arguments other {TestData Other} _.

(** [__property String* get_ConfigurationString() { return "Access.OleDb"; }] *)
Definition get_ConfigurationString {TestData Other : Type} (this : handle)
  : M (State TestData Other) String_ptr :=
  mret (literal "Access.OleDb").

(** The declaration of the getter, as written in the class body. *)
Definition get_ConfigurationString_decl : member_function := {|
  mf_access := acc_public;
  mf_property := true;
  mf_virtual := false;
  mf_pure := false;
  mf_return := T_String_ptr;
  mf_name := "get_ConfigurationString";
  mf_params := []
|}.

(** [[TestFixture] public __gc class Access : public Cpp::DbManagerTest::Test] *)
Definition Access_decl : class_decl := {|
  cd_attributes := ["TestFixture"];
  cd_access := acc_public;
  cd_gc := true;
  cd_name := "Cpp::DbManagerTest::OleDb::Access";
  cd_bases := [(acc_public, "Cpp::DbManagerTest::Test")];
  cd_data_members := [];
  cd_member_functions := [get_ConfigurationString_decl]
|}.

(** What can be run on the fixture: the one member function the class
    declares, or a member it inherits from [Test]. *)
Inductive operation (TestOp : Type) : Type :=
| op_get_ConfigurationString
| op_inherited (t : TestOp).

Arguments op_get_ConfigurationString {TestOp}.
Arguments op_inherited {TestOp} t.

(** The state one operation on the instance [this] leaves behind.  The
    inherited members are not part of this file: [Test_run] stands for
    whatever they do. *)
Definition run_operation {TestData Other TestOp : Type}
    (Test_run : TestOp → handle → M (State TestData Other) ())
    (σ : State TestData Other) (call : handle * operation TestOp)
  : State TestData Other :=
  match call with
  | (this, op_get_ConfigurationString) =>
      state_after (get_ConfigurationString this σ)
  | (this, op_inherited t) =>
      state_after (Test_run t this σ)
  end.

(** The state a run of operations, each on an instance of its own, leaves
    behind. *)
Definition run_operations {TestData Other TestOp : Type}
    (Test_run : TestOp → handle → M (State TestData Other) ())
    (calls : list (handle * operation TestOp)) (σ : State TestData Other)
  : State TestData Other :=
  foldl (run_operation Test_run) σ calls.

(** Whether a step of a run is a call of an inherited member, and not of the
    getter. *)
Definition is_inherited {TestOp : Type} (call : handle * operation TestOp)
  : bool :=
  match call.2 with
  | op_get_ConfigurationString => false
  | op_inherited _ => true
  end.

End OleDb.
End DbManagerTest.
End Cpp.

Import Managed Decl Cpp.DbManagerTest Cpp.DbManagerTest.OleDb.

(** ** Sequencing and declarations: auxiliary facts *)

Section Runtime.

Context {Σ : Type}.

Lemma bind_Returned {A B : Type} (m : M Σ A) (k : A → M Σ B) σ a σ' :
  m σ = Returned a σ' → (m ≫= k) σ = k a σ'.
Proof. intros Hm. unfold mbind, M_bind. by rewrite Hm. Qed.

Lemma has_thrown_false {A : Type} (o : outcome Σ A) :
  has_thrown o = false ↔ ∀ e σ', o ≠ Thrown e σ'.
Proof.
  destruct o as [a σ'|e σ']; simpl; split; try done.
  intros H. by destruct (H e σ').
Qed.

End Runtime.

Lemma same_signature_spec (f g : member_function) :
  same_signature f g = true ↔ mf_name f = mf_name g ∧ mf_params f = mf_params g.
Proof. unfold same_signature. by rewrite bool_decide_eq_true. Qed.

Lemma string_accessor_spec (f : member_function) :
  string_accessor f = true ↔
  mf_property f = true ∧ mf_return f = T_String_ptr ∧ mf_params f = [].
Proof.
  unfold string_accessor.
  rewrite !andb_true_iff, !bool_decide_eq_true. tauto.
Qed.

Lemma overrides_spec (base : class_decl) (f : member_function) :
  overrides base f = true ↔
  ∃ b, b ∈ cd_member_functions base ∧ mf_virtual b = true ∧ same_signature b f = true.
Proof.
  unfold overrides. rewrite existsb_exists. split.
  - intros (b & Hin & Hb). apply andb_true_iff in Hb.
    exists b. by rewrite list_elem_of_In.
  - intros (b & Hin & Hv & Hs). exists b. rewrite <- list_elem_of_In.
    split; [done|]. by rewrite Hv, Hs.
Qed.

(** Whatever the base class declares, a class with a single member function
    overrides at most one. *)
Lemma overriders_Access_at_most_one (base : class_decl) :
  overriders base Access_decl = [get_ConfigurationString_decl]
  ∨ overriders base Access_decl = [].
Proof.
  unfold overriders. simpl.
  destruct (overrides base get_ConfigurationString_decl); auto.
Qed.

(** ** Properties of the getter *)

Section Getter.

Context {TestData Other : Type}.

Implicit Types (this : handle) (σ : State TestData Other).

(** The whole outcome of a call, of which the properties below each state
    a part. *)
Lemma get_ConfigurationString_outcome this σ :
  get_ConfigurationString this σ = Returned (Some "Access.OleDb") σ.
Proof. reflexivity. Qed.

(** C1: on every instance and in every program state, the getter, which
    takes no argument besides the instance, returns exactly the string
    ["Access.OleDb"]. *)
Theorem get_ConfigurationString_returns_literal this σ :
  value_of (get_ConfigurationString this σ) = Some (Some "Access.OleDb").
Proof. by rewrite get_ConfigurationString_outcome. Qed.

(** C2: the getter is deterministic.  Two invocations, on the same instance
    or on two, in the same program state or in two, return equal strings;
    and two invocations in a row within one run return a pair of equal
    strings. *)
Theorem get_ConfigurationString_deterministic this1 this2 σ1 σ2 :
  (∃ s : string,
     value_of (get_ConfigurationString this1 σ1) = Some (Some s)
     ∧ value_of (get_ConfigurationString this2 σ2) = Some (Some s))
  ∧ (∃ s : string,
       value_of ((a ← get_ConfigurationString this1;
                  b ← get_ConfigurationString this2;
                  mret (a, b)) σ1) = Some (Some s, Some s)).
Proof.
  split; exists "Access.OleDb".
  - by rewrite !get_ConfigurationString_outcome.
  - rewrite (bind_Returned _ _ _ _ _ (get_ConfigurationString_outcome this1 σ1)).
    by rewrite (bind_Returned _ _ _ _ _ (get_ConfigurationString_outcome this2 σ1)).
Qed.

(** C3: the getter cannot fail.  Every invocation ends by returning, and
    what it returns is a string, not the null pointer standing in for a
    failure; no invocation ends by throwing, whatever the exception. *)
Theorem get_ConfigurationString_cannot_fail this σ :
  (∃ (s : string) (σ' : State TestData Other),
     get_ConfigurationString this σ = Returned (Some s) σ')
  ∧ (∃ s : string, value_of (get_ConfigurationString this σ) = Some (Some s))
  ∧ has_thrown (get_ConfigurationString this σ) = false
  ∧ (∀ e σ', get_ConfigurationString this σ ≠ Thrown e σ').
Proof.
  split; [|split; [|split]].
  - exists "Access.OleDb", σ. apply get_ConfigurationString_outcome.
  - exists "Access.OleDb". by rewrite get_ConfigurationString_outcome.
  - by rewrite get_ConfigurationString_outcome.
  - apply has_thrown_false. by rewrite get_ConfigurationString_outcome.
Qed.

(** C4: a call of the getter has no side effect.  The program state after
    the call is the state before it: every fixture instance of the heap, the
    one the call was made on among them, and everything else. *)
Theorem get_ConfigurationString_preserves_state this σ :
  state_after (get_ConfigurationString this σ) = σ
  ∧ (∀ h : handle,
       instances (state_after (get_ConfigurationString this σ)) !! h
       = instances σ !! h)
  ∧ other (state_after (get_ConfigurationString this σ)) = other σ.
Proof.
  assert (state_after (get_ConfigurationString this σ) = σ) as Hσ
    by (by rewrite get_ConfigurationString_outcome).
  split; [done|]. by rewrite Hσ.
Qed.

(** C6: the getter is total.  On every instance and in every program state
    the call ends, with a value and a state. *)
Theorem get_ConfigurationString_total this σ :
  ∃ (r : String_ptr) (σ' : State TestData Other),
    get_ConfigurationString this σ = Returned r σ'.
Proof. eexists _, _. apply get_ConfigurationString_outcome. Qed.

(** C8: the getter never returns the null pointer.  Its result refers to a
    string, and that string is not empty. *)
Theorem get_ConfigurationString_not_null this σ :
  value_of (get_ConfigurationString this σ) ≠ Some None
  ∧ ∃ s : string,
      value_of (get_ConfigurationString this σ) = Some (Some s)
      ∧ s ≠ "" ∧ 0 < String.length s.
Proof.
  rewrite get_ConfigurationString_outcome. simpl. split; [done|].
  exists "Access.OleDb". split; [done|]. split; [done|]. simpl. lia.
Qed.

(** C9: the class declares no data member.  An instance is its [Test]
    subobject and nothing more, and the result of the getter is the same on
    any two instances, whatever the heap keeps for them. *)
Theorem Access_declares_no_data_member :
  cd_data_members Access_decl = []
  ∧ (∀ a : Access TestData, a = {| Test_subobject := Test_subobject a |})
  ∧ (∀ this1 this2 σ1 σ2,
       value_of (get_ConfigurationString this1 σ1)
       = value_of (get_ConfigurationString this2 σ2))
  ∧ (∀ this (a : Access TestData) σ,
       value_of (get_ConfigurationString this
                   {| instances := <[this := a]> (instances σ);
                      other := other σ |})
       = value_of (get_ConfigurationString this σ)).
Proof.
  split; [done|]. split; [by intros []|]. split.
  - intros. by rewrite !get_ConfigurationString_outcome.
  - intros. by rewrite !get_ConfigurationString_outcome.
Qed.

End Getter.

(** ** The identifier across runs of operations *)

Section Operations.

Context {TestData Other TestOp : Type}.

Variable Test_run : TestOp → handle → M (State TestData Other) ().

Implicit Types (this : handle) (σ : State TestData Other).
Implicit Types (calls : list (handle * operation TestOp)).

(** The operation the class declares leaves the state where it was. *)
Lemma run_operation_own this σ :
  run_operation Test_run σ (this, op_get_ConfigurationString) = σ.
Proof. reflexivity. Qed.

(** C5: the configuration identifier is a constant.  Take any program
    state, and any run of operations of the fixture from it, the declared
    getter and the inherited members in any order and on any instances:
    before the run, after every step of it and at its end, the identifier the
    getter hands out is ["Access.OleDb"]; and the steps that are calls of the
    getter leave the whole state as it was. *)
Theorem configuration_identifier_constant calls σ this :
  value_of (get_ConfigurationString this σ) = Some (literal "Access.OleDb")
  ∧ (∀ n : nat,
       value_of (get_ConfigurationString this
                   (run_operations Test_run (take n calls) σ))
       = Some (literal "Access.OleDb"))
  ∧ value_of (get_ConfigurationString this (run_operations Test_run calls σ))
    = value_of (get_ConfigurationString this σ)
  ∧ (∀ this' σ',
       run_operation Test_run σ' (this', op_get_ConfigurationString) = σ').
Proof.
  split; [by rewrite get_ConfigurationString_outcome|].
  split; [|split].
  - intros n. by rewrite get_ConfigurationString_outcome.
  - by rewrite !get_ConfigurationString_outcome.
  - intros. apply run_operation_own.
Qed.

End Operations.

(** ** The class and its base *)

Section Inheritance.

Context {TestData Other : Type}.

(** The declaration of the base class [Cpp::DbManagerTest::Test], which is
    not part of this file.  All that is asked of it is what the fixture
    relies on: it bears the name the fixture derives from, and it declares a
    virtual getter [get_ConfigurationString] that hands out a string. *)
Variable Test_decl : class_decl.

Hypothesis Test_name : cd_name Test_decl = "Cpp::DbManagerTest::Test".

Hypothesis Test_requires :
  ∃ b : member_function,
    b ∈ cd_member_functions Test_decl
    ∧ mf_virtual b = true
    ∧ mf_name b = "get_ConfigurationString"
    ∧ string_accessor b = true.

Lemma get_ConfigurationString_overrides :
  overrides Test_decl get_ConfigurationString_decl = true.
Proof.
  destruct Test_requires as (b & Hin & Hvirtual & Hname & Haccessor).
  apply overrides_spec. exists b. split; [done|]. split; [done|].
  apply string_accessor_spec in Haccessor as (_ & _ & Hparams).
  apply same_signature_spec. by rewrite Hname, Hparams.
Qed.


End Inheritance.


(** ** The getter among other code *)

Section Composition.

Context {TestData Other TestOp : Type}.

Implicit Types (this : handle) (σ : State TestData Other).

(** X1: a call of the getter can be moved across any other code.  Whatever
    [m] does, change the state, return or throw, running the getter before it
    and running it after it end in the same outcome: the same pair of values
    and the same state, or the same exception and the same state. *)
Theorem get_ConfigurationString_commutes
    {B : Type} (m : M (State TestData Other) B) this σ :
  (x ← get_ConfigurationString this; y ← m; mret (x, y)) σ
  = (y ← m; x ← get_ConfigurationString this; mret (x, y)) σ.
Proof.
  rewrite !(bind_Returned _ _ _ _ _ (get_ConfigurationString_outcome this σ)).
  unfold mbind, M_bind. destruct (m σ) as [y σ'|e σ']; reflexivity.
Qed.

(** X2: the result of the getter can be kept and used again.  A second call,
    on the same instance or on another, made after any code [m] whatever it
    did to the state, can be replaced by the value the first call returned. *)
Theorem get_ConfigurationString_reusable
    {B C : Type} (m : M (State TestData Other) B)
    (k : String_ptr → B → String_ptr → M (State TestData Other) C)
    this this' σ :
  (a ← get_ConfigurationString this;
   y ← m;
   b ← get_ConfigurationString this';
   k a y b) σ
  = (a ← get_ConfigurationString this; y ← m; k a y a) σ.
Proof.
  rewrite !(bind_Returned _ _ _ _ _ (get_ConfigurationString_outcome this σ)).
  unfold mbind, M_bind. destruct (m σ) as [y σ'|e σ']; reflexivity.
Qed.

Variable Test_run : TestOp → handle → M (State TestData Other) ().

Implicit Types (calls : list (handle * operation TestOp)).

(** X3: calls of the getter leave no trace in a run.  The state at the end
    of any run of operations is the state at the end of the same run with
    every call of the getter struck out, whatever the inherited members
    do. *)
Theorem run_operations_without_getter calls σ :
  run_operations Test_run calls σ
  = run_operations Test_run (List.filter is_inherited calls) σ.
Proof.
  revert σ. induction calls as [|[this op] calls IH]; intros σ; [done|].
  destruct op as [|t]; simpl.
  - apply IH.
  - apply IH.
Qed.

End Composition.
